(** * doctr: backend availability shim and detection post-processing

    A shallow embedding of [file_utils.py] (the import-time selection of the
    tensor backend) together with the pieces of the detection package that
    [test_models_detection_tf.py] exercises. *)

From Stdlib Require Import Ascii String ZArith QArith Lqa.
From stdpp Require Import gmap strings list.

Open Scope Z_scope.

(** ** Python-level outcomes and observable events *)

Inductive exn : Type :=
| PackageNotFoundError (name : string)
| ValueError (msg : string)
| AssertionError (msg : string)
| IndexError
| AttributeError (name : string)
| NameError (name : string)
| ModuleNotFoundError (msg : string).

Inductive result (A : Type) : Type :=
| Ok (a : A)
| Raise (e : exn).
Arguments Ok {A} a.
Arguments Raise {A} e.

(** What the module body does to the outside: the two probes of the
    installed packages, and the [logging.info] records. *)
Inductive event : Type :=
| FindSpec (name : string)
| MetadataVersion (name : string)
| LogInfo (msg : string).

(** The process the module is imported in.  [str_upper] and [py_int] are
    the builtins [str.upper] and [int] ([None] when [int] raises
    [ValueError]); [os_environ] is [os.environ]; [find_spec n] tells whether
    [importlib.util.find_spec(n)] is not [None]; [metadata_version n] is
    [importlib_metadata.version(n)], [None] when it raises
    [PackageNotFoundError]. *)
Record process : Type := Process {
  str_upper : string → string;
  py_int : string → option Z;
  os_environ : gmap string string;
  find_spec : string → bool;
  metadata_version : string → option string
}.

(** [s.split(c)] for a one-character separator. *)
Fixpoint split (sep : ascii) (s : string) : list string :=
  match s with
  | EmptyString => [EmptyString]
  | String c rest =>
      if decide (c = sep) then EmptyString :: split sep rest
      else match split sep rest with
           | [] => [String c EmptyString]
           | w :: ws => String c w :: ws
           end
  end.

Module FileUtils.

(** The module globals that the body rebinds; [None] is an unbound name.
    [_tf_version] is bound to Python's [None] or to a string. *)
Record globals : Type := Globals {
  _torch_available : option bool;
  _torch_version : option string;
  _tf_available : option bool;
  _tf_version : option (option string)
}.

Record state : Type := State {
  glob : globals;
  trace : list event
}.

Definition unbound : globals := Globals None None None None.
Definition fresh : state := State unbound [].

(** Computations of the module body: the state survives an exception. *)
Definition M (A : Type) : Type := state → result A * state.

Definition ret {A} (a : A) : M A := fun s => (Ok a, s).
Definition bind {A B} (m : M A) (k : A → M B) : M B :=
  fun s => match m s with
           | (Ok a, s') => k a s'
           | (Raise e, s') => (Raise e, s')
           end.
Definition raise {A} (e : exn) : M A := fun s => (Raise e, s).

Notation "'let*' x ':=' m 'in' k" := (bind m (fun x => k))
  (at level 10, x name, m at level 100, k at level 200).
Notation "m ';;' k" := (bind m (fun _ => k))
  (at level 100, k at level 200, right associativity).

Definition emit (e : event) : M unit :=
  fun s => (Ok tt, State (glob s) (trace s ++ [e])).

Definition modify (f : globals → globals) : M unit :=
  fun s => (Ok tt, State (f (glob s)) (trace s)).

Definition read {A} (name : string) (f : globals → option A) : M A :=
  fun s => match f (glob s) with
           | Some a => (Ok a, s)
           | None => (Raise (NameError name), s)
           end.

(** [try: body except importlib_metadata.PackageNotFoundError: handler] *)
Definition try_except_PackageNotFoundError {A} (body handler : M A) : M A :=
  fun s => match body s with
           | (Raise (PackageNotFoundError _), s') => handler s'
           | r => r
           end.

Definition set_torch_available (b : bool) : M unit :=
  modify (fun g => Globals (Some b) (_torch_version g) (_tf_available g) (_tf_version g)).
Definition set_torch_version (v : string) : M unit :=
  modify (fun g => Globals (_torch_available g) (Some v) (_tf_available g) (_tf_version g)).
Definition set_tf_available (b : bool) : M unit :=
  modify (fun g => Globals (_torch_available g) (_torch_version g) (Some b) (_tf_version g)).
Definition set_tf_version (v : option string) : M unit :=
  modify (fun g => Globals (_torch_available g) (_torch_version g) (_tf_available g) (Some v)).

Definition get_torch_available : M bool := read "_torch_available" _torch_available.
Definition get_torch_version : M string := read "_torch_version" _torch_version.
Definition get_tf_available : M bool := read "_tf_available" _tf_available.
Definition get_tf_version : M (option string) := read "_tf_version" _tf_version.

Definition ENV_VARS_TRUE_VALUES : gset string :=
  {[ "1"; "ON"; "YES"; "TRUE" ]}.
Definition ENV_VARS_TRUE_AND_AUTO_VALUES : gset string :=
  ENV_VARS_TRUE_VALUES ∪ {[ "AUTO" ]}.

Definition candidates : list string :=
  [ "tensorflow"; "tensorflow-cpu"; "tensorflow-gpu"; "tf-nightly";
    "tf-nightly-cpu"; "tf-nightly-gpu"; "intel-tensorflow";
    "tensorflow-rocm"; "tensorflow-macos" ].

Section ModuleBody.

Variable P : process.

(** [os.environ.get(name, default)] *)
Definition environ_get (name default : string) : string :=
  match os_environ P !! name with
  | Some v => v
  | None => default
  end.

Definition USE_TF : string := str_upper P (environ_get "USE_TF" "AUTO").
Definition USE_TORCH : string := str_upper P (environ_get "USE_TORCH" "AUTO").

Definition importlib_util_find_spec (name : string) : M bool :=
  emit (FindSpec name);; ret (find_spec P name).

Definition importlib_metadata_version (name : string) : M string :=
  emit (MetadataVersion name);;
  match metadata_version P name with
  | Some v => ret v
  | None => raise (PackageNotFoundError name)
  end.

Definition logging_info (msg : string) : M unit := emit (LogInfo msg).

(** [int(s)] *)
Definition int (s : string) : M Z :=
  match py_int P s with
  | Some n => ret n
  | None => raise (ValueError ("invalid literal for int() with base 10: " +:+ s))
  end.

(** [l[i]] on a list *)
Definition getitem {A} (l : list A) (i : nat) : M A :=
  match l !! i with
  | Some a => ret a
  | None => raise IndexError
  end.

(** Lines 28-38. *)
Definition torch_block : M unit :=
  if bool_decide (USE_TORCH ∈ ENV_VARS_TRUE_AND_AUTO_VALUES)
     && negb (bool_decide (USE_TF ∈ ENV_VARS_TRUE_VALUES))
  then
    let* found := importlib_util_find_spec "torch" in
    set_torch_available found;;
    let* avail := get_torch_available in
    if avail then
      try_except_PackageNotFoundError
        (let* v := importlib_metadata_version "torch" in
         set_torch_version v;;
         let* v := get_torch_version in
         logging_info ("PyTorch version " +:+ v +:+ " available."))
        (set_torch_available false)
    else ret tt
  else
    logging_info "Disabling PyTorch because USE_TF is set";;
    set_torch_available false.

(** Lines 57-62: the loop stops at the first candidate with metadata. *)
Fixpoint for_pkg_in (pkgs : list string) : M unit :=
  match pkgs with
  | [] => ret tt
  | pkg :: rest =>
      let* stop :=
        try_except_PackageNotFoundError
          (let* v := importlib_metadata_version pkg in
           set_tf_version (Some v);;
           ret true)
          (ret false) in
      if (stop : bool) then ret tt else for_pkg_in rest
  end.

(** Lines 41-72. *)
Definition tf_block : M unit :=
  if bool_decide (USE_TF ∈ ENV_VARS_TRUE_AND_AUTO_VALUES)
     && negb (bool_decide (USE_TORCH ∈ ENV_VARS_TRUE_VALUES))
  then
    let* found := importlib_util_find_spec "tensorflow" in
    set_tf_available found;;
    let* avail := get_tf_available in
    (if avail then
       set_tf_version None;;
       for_pkg_in candidates;;
       let* v := get_tf_version in
       set_tf_available (bool_decide (v ≠ None))
     else ret tt);;
    let* avail := get_tf_available in
    if avail then
      let* v := get_tf_version in
      match v with
      | None => raise (AttributeError "split")
      | Some v =>
          let* major := getitem (split "." v) 0 in
          let* major := int major in
          if bool_decide (major < 2) then
            logging_info ("TensorFlow found but with version " +:+ v
                          +:+ ". DocTR requires version 2 minimum.");;
            set_tf_available false
          else
            logging_info ("TensorFlow version " +:+ v +:+ " available.")
      end
    else ret tt
  else
    logging_info "Disabling Tensorflow because USE_TORCH is set";;
    set_tf_available false.

(** What the loop of lines 55-62 leaves in [_tf_version], and the
    distributions it asks for on the way. *)
Fixpoint found_version (pkgs : list string) : option string :=
  match pkgs with
  | [] => None
  | pkg :: rest =>
      match metadata_version P pkg with
      | Some v => Some v
      | None => found_version rest
      end
  end.

Fixpoint asked (pkgs : list string) : list string :=
  match pkgs with
  | [] => []
  | pkg :: rest =>
      pkg :: match metadata_version P pkg with
             | Some _ => []
             | None => asked rest
             end
  end.

(** Lines 28-72: both availability flags are settled. *)
Definition selection : M unit := torch_block;; tf_block.

(** Lines 75-77. *)
Definition require_backend : M unit :=
  let* t := get_torch_available in
  let* f := get_tf_available in
  if negb t && negb f then
    raise (ModuleNotFoundError
             ("DocTR requires either TensorFlow or PyTorch to be installed. Please ensure one of them"
              +:+ " is installed and that either USE_TF or USE_TORCH is enabled."))
  else ret tt.

(** The body of the module, run once when it is imported. *)
Definition module_body : M unit := selection;; require_backend.

Definition import_module : result unit * state := module_body fresh.

End ModuleBody.

(** The two public queries read the globals of the imported module. *)
Definition is_torch_available : M bool := get_torch_available.
Definition is_tf_available : M bool := get_tf_available.

(** Which events are a probe of which backend. *)
Definition probes_torch (e : event) : Prop :=
  e = FindSpec "torch" ∨ e = MetadataVersion "torch".
Definition probes_tf (e : event) : Prop :=
  e = FindSpec "tensorflow" ∨ ∃ pkg, pkg ∈ candidates ∧ e = MetadataVersion pkg.

End FileUtils.

(** * Builtins on ASCII text, for running the model on concrete inputs *)

Module Builtins.

Definition upper_ascii (c : ascii) : ascii :=
  let n := N_of_ascii c in
  if ((97 <=? n) && (n <=? 122))%N then ascii_of_N (n - 32) else c.

(** [str.upper] on ASCII text. *)
Fixpoint upper (s : string) : string :=
  match s with
  | EmptyString => EmptyString
  | String c rest => String (upper_ascii c) (upper rest)
  end.

Definition is_space (c : ascii) : bool :=
  let n := N_of_ascii c in ((n =? 32) || ((9 <=? n) && (n <=? 13)))%N.

Definition digit (c : ascii) : option Z :=
  let n := N_of_ascii c in
  if ((48 <=? n) && (n <=? 57))%N then Some (Z.of_N (n - 48)) else None.

Fixpoint lstrip (s : string) : string :=
  match s with
  | String c rest => if is_space c then lstrip rest else s
  | EmptyString => EmptyString
  end.

Fixpoint rstrip (s : string) : string :=
  match s with
  | EmptyString => EmptyString
  | String c rest =>
      match rstrip rest with
      | EmptyString => if is_space c then EmptyString else String c EmptyString
      | r => String c r
      end
  end.

(** Digits with single underscores between them; [acc] is the value read
    so far and [after_digit] tells whether the last character was one. *)
Fixpoint digits (s : string) (acc : Z) (after_digit : bool) : option Z :=
  match s with
  | EmptyString => if after_digit then Some acc else None
  | String c rest =>
      match digit c with
      | Some d => digits rest (10 * acc + d) true
      | None =>
          if decide (c = "_"%char) then
            if after_digit then digits rest acc false else None
          else None
      end
  end.

(** [int(s)] on ASCII text: surrounding white space, an optional sign, and
    decimal digits; [None] when Python raises [ValueError]. *)
Definition int_literal (s : string) : option Z :=
  match rstrip (lstrip s) with
  | String "-" rest => Z.opp <$> digits rest 0 false
  | String "+" rest => digits rest 0 false
  | body => digits body 0 false
  end.

(** A process with these builtins. *)
Definition process_of (env : list (string * string)) (modules : list string)
    (dists : list (string * string)) : process :=
  {| str_upper := upper;
     py_int := int_literal;
     os_environ := list_to_map env;
     find_spec := fun name => bool_decide (name ∈ modules);
     metadata_version := fun name => (list_to_map dists : gmap string string) !! name |}.

(** Some installations. *)
Definition nothing_installed : process := process_of [] [] [].
Definition torch_only : process := process_of [] ["torch"] [("torch", "1.10.0")].
Definition tf_cpu_2_8 : process :=
  process_of [("USE_TF", "yes")] ["torch"; "tensorflow"]
             [("torch", "1.10.0"); ("tensorflow-cpu", "2.8.0")].
Definition tf_unnumbered : process :=
  process_of [] ["torch"; "tensorflow"]
             [("torch", "1.10.0"); ("tf-nightly", "nightly")].

End Builtins.

(** * The detection package, as the tests and the specification describe it

    [test_models_detection_tf.py] calls [erode], [dilate], the detection
    models and [DetectionPredictor]; their bodies live in [doctr.models],
    which is not among the sources at hand. *)

Module Morphology.

(** A single-channel binary map, row by row; [true] is a pixel equal to 1. *)
Abbreviation bitmap := (list (list bool)).

Definition pixel (m : bitmap) (y x : nat) : option bool :=
  m !! y ≫= λ row, row !! x.

(** Modelled from the spec: the padding of the missing operators.  The pixel
    at row [y], column [x] as a kernel sees it: "out-of-bounds neighbors
    treated as background (0)". *)
Definition padded (m : bitmap) (y x : Z) : bool :=
  if bool_decide (0 ≤ y) && bool_decide (0 ≤ x)
  then default false (pixel m (Z.to_nat y) (Z.to_nat x))
  else false.

(** Modelled from the spec: the "kernel neighborhood" of the missing
    operators, along one axis: the [kernel_size] coordinates of a kernel
    centred on [c]. *)
Definition window (kernel_size : nat) (c : nat) : list Z :=
  seqZ (Z.of_nat c - (Z.of_nat kernel_size - 1) `div` 2) (Z.of_nat kernel_size).

(** Modelled from the spec: [erode] of [doctr.models.detection._utils] is
    missing.  "Erosion: output pixel is 1 only if all pixels in the kernel
    neighborhood are 1", with "out-of-bounds neighbors treated as background
    (0)". *)
Definition erode_map (kernel_size : nat) (m : bitmap) : bitmap :=
  imap (λ y row,
          imap (λ x _,
                  forallb (λ y', forallb (λ x', padded m y' x') (window kernel_size x))
                          (window kernel_size y))
               row)
       m.

(** Modelled from the spec: [dilate] of [doctr.models.detection._utils] is
    missing.  "Dilation: output pixel is 1 if any pixel in the neighborhood
    is 1". *)
Definition dilate_map (kernel_size : nat) (m : bitmap) : bitmap :=
  imap (λ y row,
          imap (λ x _,
                  existsb (λ y', existsb (λ x', padded m y' x') (window kernel_size x))
                          (window kernel_size y))
               row)
       m.

(** [erode(x, kernel_size)] and [dilate(x, kernel_size)] on a batch of
    single-channel maps. *)
Definition erode (x : list bitmap) (kernel_size : nat) : list bitmap :=
  erode_map kernel_size <$> x.
Definition dilate (x : list bitmap) (kernel_size : nat) : list bitmap :=
  dilate_map kernel_size <$> x.

(** The tensors of [test_erode] and [test_dilate], of shape (1, 3, 3, 1). *)
Definition centre_dot : list bitmap :=
  [ [ [false; false; false]; [false; true; false]; [false; false; false] ] ].
Definition zeros_3x3 : list bitmap := [ replicate 3 (replicate 3 false) ].
Definition ones_3x3 : list bitmap := [ replicate 3 (replicate 3 true) ].

End Morphology.

Module Targets.

Inductive dtype : Type := np_uint8 | np_int32 | np_int64 | np_float32.

Definition is_integer (d : dtype) : bool :=
  match d with
  | np_float32 => false
  | _ => true
  end.

(** One row [xmin, ymin, xmax, ymax] of a target array. *)
Record box : Type := Box { xmin : Q; ymin : Q; xmax : Q; ymax : Q }.

(** The boxes of one image, with the dtype of the array holding them. *)
Record ndarray : Type := Array { arr_dtype : dtype; boxes : list box }.

Definition in_unit (q : Q) : bool := Qle_bool 0 q && Qle_bool q 1.
Definition Qlt_bool (a b : Q) : bool := negb (Qle_bool b a).

(** Modelled from the spec: "Invariant: xmin < xmax, ymin < ymax, all
    coordinates within [0,1]". *)
Definition valid_box (b : box) : bool :=
  in_unit (xmin b) && in_unit (ymin b) && in_unit (xmax b) && in_unit (ymax b)
  && Qlt_bool (xmin b) (xmax b) && Qlt_bool (ymin b) (ymax b).

(** Modelled from the spec: the target validation of the detection models
    is missing.  "violated inputs must raise a validation error (type
    mismatch -> assertion-style failure; out-of-range/invalid geometry ->
    value error)". *)
Definition check_target (target : list ndarray) : result unit :=
  if existsb (λ t, is_integer (arr_dtype t)) target then
    Raise (AssertionError "target boxes: integer dtype")
  else if existsb (λ t, existsb (λ b, negb (valid_box b)) (boxes t)) target then
    Raise (ValueError "target boxes: coordinates out of [0, 1] or inverted")
  else Ok tt.

Definition outside_unit (q : Q) : Prop := (q < 0 ∨ 1 < q)%Q.

(** Some coordinate is out of [0,1], or the box is not the right way round. *)
Definition bad_geometry (b : box) : Prop :=
  outside_unit (xmin b) ∨ outside_unit (ymin b)
  ∨ outside_unit (xmax b) ∨ outside_unit (ymax b)
  ∨ (xmax b <= xmin b)%Q ∨ (ymax b <= ymin b)%Q.

Section Model.

(** A detection architecture: what it computes from a batch and its targets
    once the targets are accepted. *)
Variables (tensor output : Type).
Variable compute : tensor → list ndarray → output.

(** Modelled from the spec: the training-mode call
    [model(images, targets, training=True)] validates the targets before
    anything else. *)
Definition call_training (x : tensor) (target : list ndarray) : result output :=
  match check_target target with
  | Ok _ => Ok (compute x target)
  | Raise e => Raise e
  end.

End Model.

(** The targets of [test_detection_models]. *)
Definition int_target : list ndarray :=
  [ Array np_uint8 [Box 0 0 1 1]; Array np_uint8 [Box 0 0 1 1] ].
Definition out_of_range_target : list ndarray :=
  [ Array np_float32 [Box 0 0 (3 # 2) (3 # 2)];
    Array np_float32 [Box (-2 # 10) (-3 # 10) 1 1] ].
Definition good_target : list ndarray :=
  [ Array np_float32 [Box (1 # 2) (1 # 2) 1 1; Box (1 # 2) (1 # 2) (8 # 10) (8 # 10)];
    Array np_float32 [Box (1 # 2) (1 # 2) 1 1; Box (1 # 2) (1 # 2) (8 # 10) (9 # 10)] ].

End Targets.

Module Predictor.

(** What the predictor reports to have done: one forward pass per batch. *)
Inductive step (tensor : Type) : Type :=
| Forward (batch : list tensor).
Arguments Forward {tensor} batch.

Section DetectionPredictor.

(** Page images, resized tensors and the per-image set of boxes. *)
Variables (page tensor boxes : Type).
Variable shape : page → list nat.
Variable resize : page → tensor.
Variable model : list tensor → list boxes.
Variable batch_size : nat.

(** Modelled from the spec: the shape check of [DetectionPredictor] is
    missing.  Pages are images (height, width, channels); the test rejects
    an array of shape (1, 256, 512, 3) as a "Dimension check". *)
Definition conforms (p : page) : bool := bool_decide (length (shape p) = 3%nat).

(** Modelled from the spec: the [PreProcessor] is missing.  "the
    preprocessor batches and resizes them to a fixed target shape": the
    resized pages, [batch_size] at a time, the last batch possibly shorter. *)
Definition batch_inputs (samples : list tensor) : list (list tensor) :=
  let num_batches := Nat.div (length samples + batch_size - 1) batch_size in
  (λ idx, take batch_size (drop (idx * batch_size) samples)) <$> seq 0 num_batches.

(** Modelled from the spec: [DetectionPredictor.__call__] is missing.
    "Input images whose shape does not conform to expectations cause an
    input-validation failure prior to model invocation"; otherwise "the
    model consumes the batch and emits, per image, a variable-length set of
    predicted boxes".  The second component lists the forward passes. *)
Definition predict (pages : list page) : result (list boxes) * list (step tensor) :=
  if forallb conforms pages then
    let batches := batch_inputs (resize <$> pages) in
    (Ok (concat (model <$> batches)), Forward <$> batches)
  else
    (Raise (ValueError "page: incorrect input shape"),
     []).

End DetectionPredictor.

(** Two A4 pages at 72 dpi, and the array of the dimension check. *)
Definition two_pages : list (list nat) := [ [842; 595; 3]; [842; 595; 3] ]%nat.
Definition four_dimensional : list nat := [1; 256; 512; 3]%nat.

End Predictor.

(** * More installations and environments *)

Module Scenarios.

Import Builtins.

Definition installed : list string := ["torch"; "tensorflow"].
Definition dists : list (string * string) :=
  [("torch", "1.10.0"); ("tensorflow", "2.8.0")].

(** Both backends installed, environment untouched. *)
Definition both_installed : process := process_of [] installed dists.
(** Both flags forced. *)
Definition both_forced : process :=
  process_of [("USE_TF", "1"); ("USE_TORCH", "true")] installed dists.
(** TensorFlow switched off, next to a distribution without a version
    number. *)
Definition tf_switched_off : process :=
  process_of [("USE_TF", "0")] installed
             [("torch", "1.10.0"); ("tf-nightly", "nightly")].
(** A [tensorflow] module that can be imported but has no distribution. *)
Definition tf_without_metadata : process :=
  process_of [] installed [("torch", "1.10.0")].

(** TensorFlow 1.15 and nothing else. *)
Definition tf_1_15 : process :=
  process_of [] ["tensorflow"] [("tensorflow-gpu", "1.15.0")].

End Scenarios.

(** * The box assertions of [test_detection_models] (lines 44-47) *)

Module DetectionTest.

(** An entry of a float array: the rational a finite float denotes, an
    infinity, or NaN. *)
Inductive float : Type := Finite (q : Q) | PosInf | NegInf | NaN.

(** [a < b] and [a <= b] on floats; a comparison with NaN is false. *)
Definition flt (a b : float) : bool :=
  match a, b with
  | Finite x, Finite y => Targets.Qlt_bool x y
  | NegInf, Finite _ | NegInf, PosInf | Finite _, PosInf => true
  | _, _ => false
  end.
Definition fle (a b : float) : bool :=
  match a, b with
  | Finite x, Finite y => Qle_bool x y
  | NegInf, Finite _ | NegInf, PosInf | Finite _, PosInf => true
  | NegInf, NegInf | PosInf, PosInf => true
  | _, _ => false
  end.

(** A two-dimensional array: [shape1] is [a.shape[1]], every row has that
    many entries. *)
Record matrix : Type := Matrix { shape1 : nat; rows : list (list float) }.
Definition well_formed (a : matrix) : Prop :=
  Forall (λ row, length row = shape1 a) (rows a).

(** [a[:, lo:hi]], as the rows of the slice. *)
Definition columns (lo hi : nat) (a : matrix) : list (list float) :=
  (λ row, take (hi - lo) (drop lo row)) <$> rows a.

(** [x < y] on two slices of the same shape, [x >= c] and [x <= c] against
    a scalar, and [np.all]. *)
Definition less (x y : list (list float)) : list (list bool) :=
  zip_with (zip_with flt) x y.
Definition greater_equal (x : list (list float)) (c : float) : list (list bool) :=
  (λ row : list float, (λ e, fle c e) <$> row) <$> x.
Definition less_equal (x : list (list float)) (c : float) : list (list bool) :=
  (λ row : list float, (λ e, fle e c) <$> row) <$> x.
Definition np_all (x : list (list bool)) : bool := forallb (forallb id) x.

Definition assert (b : bool) : result unit :=
  if b then Ok tt else Raise (AssertionError "").

(** The body of the loop of lines 44-47. *)
Definition check_boxes (boxes : matrix) : result unit :=
  match assert (bool_decide (shape1 boxes = 5%nat)) with
  | Raise e => Raise e
  | Ok _ =>
      match assert (np_all (less (columns 0 2 boxes) (columns 2 4 boxes))) with
      | Raise e => Raise e
      | Ok _ =>
          assert (np_all (greater_equal (columns 0 4 boxes) (Finite 0))
                  && np_all (less_equal (columns 0 4 boxes) (Finite 1)))
      end
  end.

(** [for boxes in out['preds']: ...] *)
Fixpoint check_preds (preds : list matrix) : result unit :=
  match preds with
  | [] => Ok tt
  | boxes :: rest =>
      match check_boxes boxes with
      | Raise e => Raise e
      | Ok _ => check_preds rest
      end
  end.

(** A row the assertions accept: four finite coordinates in [0,1], the
    corners the right way round, and any fifth entry. *)
Definition accepted_row (row : list float) : Prop :=
  ∃ (x0 y0 x1 y1 : Q) (score : float),
    row = [Finite x0; Finite y0; Finite x1; Finite y1; score]
    ∧ (0 <= x0 <= 1 ∧ 0 <= y0 <= 1 ∧ 0 <= x1 <= 1 ∧ 0 <= y1 <= 1
       ∧ x0 < x1 ∧ y0 < y1)%Q.

(** Predictions whose scores are anything but scores. *)
Definition odd_scores : list matrix :=
  [ Matrix 5 [ [Finite (1 # 10); Finite (2 # 10); Finite (5 # 10); Finite (6 # 10); NaN];
              [Finite 0; Finite 0; Finite 1; Finite 1; Finite 7] ];
    Matrix 5 [] ].

End DetectionTest.

(** * Properties of the availability shim *)

Import FileUtils.

Lemma split_cons sep s : ∃ c cs, split sep s = c :: cs.
Proof.
  induction s as [|a s [c [cs IH]]]; simpl; [by eauto|].
  case_decide; [by eauto|]. rewrite IH. by eauto.
Qed.

Section ImportFacts.

Variable P : process.

Ltac run := unfold bind, ret, raise, emit, modify, read; simpl.

Lemma for_pkg_in_run pkgs s :
  for_pkg_in P pkgs s =
    (Ok tt,
     State (match found_version P pkgs with
            | Some v => Globals (_torch_available (glob s)) (_torch_version (glob s))
                                (_tf_available (glob s)) (Some (Some v))
            | None => glob s
            end)
           (trace s ++ map MetadataVersion (asked P pkgs))).
Proof.
  revert s. induction pkgs as [|pkg rest IH]; intros [g t]; simpl.
  - by rewrite app_nil_r.
  - unfold try_except_PackageNotFoundError, importlib_metadata_version,
      set_tf_version. run.
    destruct (metadata_version P pkg) as [v|]; simpl; [done|].
    rewrite IH. simpl. by rewrite <- app_assoc.
Qed.

Lemma torch_block_run s :
  torch_block P s =
    let g := glob s in
    if bool_decide (USE_TORCH P ∈ ENV_VARS_TRUE_AND_AUTO_VALUES)
       && negb (bool_decide (USE_TF P ∈ ENV_VARS_TRUE_VALUES))
    then
      if find_spec P "torch" then
        match metadata_version P "torch" with
        | Some v =>
            (Ok tt,
             State (Globals (Some true) (Some v) (_tf_available g) (_tf_version g))
                   (trace s ++ [FindSpec "torch"; MetadataVersion "torch";
                                LogInfo ("PyTorch version " +:+ v +:+ " available.")]))
        | None =>
            (Ok tt,
             State (Globals (Some false) (_torch_version g) (_tf_available g) (_tf_version g))
                   (trace s ++ [FindSpec "torch"; MetadataVersion "torch"]))
        end
      else
        (Ok tt,
         State (Globals (Some false) (_torch_version g) (_tf_available g) (_tf_version g))
               (trace s ++ [FindSpec "torch"]))
    else
      (Ok tt,
       State (Globals (Some false) (_torch_version g) (_tf_available g) (_tf_version g))
             (trace s ++ [LogInfo "Disabling PyTorch because USE_TF is set"])).
Proof.
  destruct s as [g t]. unfold torch_block.
  destruct (_ && _); [|done].
  unfold importlib_util_find_spec, set_torch_available, get_torch_available. run.
  destruct (find_spec P "torch"); [|done].
  unfold try_except_PackageNotFoundError, importlib_metadata_version,
    set_torch_version, get_torch_version, logging_info. run.
  destruct (metadata_version P "torch"); simpl; by rewrite <- !app_assoc.
Qed.

Lemma tf_block_run s :
  tf_block P s =
    let g := glob s in
    let tf b v := Globals (_torch_available g) (_torch_version g) (Some b) v in
    if bool_decide (USE_TF P ∈ ENV_VARS_TRUE_AND_AUTO_VALUES)
       && negb (bool_decide (USE_TORCH P ∈ ENV_VARS_TRUE_VALUES))
    then
      if find_spec P "tensorflow" then
        let t := trace s ++ FindSpec "tensorflow"
                   :: map MetadataVersion (asked P candidates) in
        match found_version P candidates with
        | Some v =>
            match split "." v !! 0%nat with
            | Some c =>
                match py_int P c with
                | Some major =>
                    if bool_decide (major < 2) then
                      (Ok tt,
                       State (tf false (Some (Some v)))
                             (t ++ [LogInfo ("TensorFlow found but with version " +:+ v
                                             +:+ ". DocTR requires version 2 minimum.")]))
                    else
                      (Ok tt,
                       State (tf true (Some (Some v)))
                             (t ++ [LogInfo ("TensorFlow version " +:+ v +:+ " available.")]))
                | None =>
                    (Raise (ValueError ("invalid literal for int() with base 10: " +:+ c)),
                     State (tf true (Some (Some v))) t)
                end
            | None => (Raise IndexError, State (tf true (Some (Some v))) t)
            end
        | None => (Ok tt, State (tf false (Some None)) t)
        end
      else (Ok tt, State (tf false (_tf_version g)) (trace s ++ [FindSpec "tensorflow"]))
    else
      (Ok tt,
       State (tf false (_tf_version g))
             (trace s ++ [LogInfo "Disabling Tensorflow because USE_TORCH is set"])).
Proof.
  destruct s as [g t]. unfold tf_block. generalize candidates. intros pkgs.
  destruct (_ && _); [|done].
  unfold importlib_util_find_spec, set_tf_available, get_tf_available. run.
  destruct (find_spec P "tensorflow"); [|done].
  unfold set_tf_version, get_tf_version. run.
  rewrite for_pkg_in_run. simpl.
  destruct (found_version P pkgs) as [v|]; simpl; rewrite <- !app_assoc; [|done].
  unfold getitem, int, logging_info. run.
  destruct (split "." v !! 0%nat) as [c|]; [|done]. simpl.
  destruct (py_int P c) as [major|]; [|done]. simpl.
  destruct (bool_decide (major < 2)); simpl; by rewrite <- !app_assoc.
Qed.

(** The loop only finds a version that a candidate has, and only asks for
    candidates. *)
Lemma found_version_elem pkgs v :
  found_version P pkgs = Some v →
  ∃ pkg, pkg ∈ pkgs ∧ metadata_version P pkg = Some v.
Proof.
  induction pkgs as [|pkg rest IH]; simpl; [done|].
  destruct (metadata_version P pkg) as [w|] eqn:E.
  - intros [= ->]. exists pkg. split; [left|done].
  - intros [q [Hq Hv]]%IH. exists q. split; [by right|done].
Qed.

Lemma found_version_none pkgs pkg :
  found_version P pkgs = None → pkg ∈ pkgs → metadata_version P pkg = None.
Proof.
  induction pkgs as [|q rest IH]; simpl; [by intros _ ?%elem_of_nil|].
  destruct (metadata_version P q) eqn:E; [done|].
  intros Hn [->|Hin]%elem_of_cons; auto.
Qed.

Lemma asked_subseteq pkgs : asked P pkgs ⊆ pkgs.
Proof.
  induction pkgs as [|pkg rest IH]; simpl; [done|].
  destruct (metadata_version P pkg).
  - intros q ->%list_elem_of_singleton. left.
  - intros q [->|Hq]%elem_of_cons; [left|right; auto].
Qed.

Lemma torch_not_candidate : "torch" ∉ candidates.
Proof. by apply (bool_decide_unpack ("torch" ∉ candidates)). Qed.

Lemma asked_no_torch_probe :
  Forall (λ e, ¬ probes_torch e) (map MetadataVersion (asked P candidates)).
Proof.
  apply Forall_forall. intros e [pkg [-> Hin]]%list_elem_of_fmap [?|[= ->]]; [done|].
  by apply torch_not_candidate, asked_subseteq.
Qed.

Abbreviation torch_selectable :=
  (bool_decide (USE_TORCH P ∈ ENV_VARS_TRUE_AND_AUTO_VALUES)
   && negb (bool_decide (USE_TF P ∈ ENV_VARS_TRUE_VALUES))).
Abbreviation tf_selectable :=
  (bool_decide (USE_TF P ∈ ENV_VARS_TRUE_AND_AUTO_VALUES)
   && negb (bool_decide (USE_TORCH P ∈ ENV_VARS_TRUE_VALUES))).

(** [found_version] is the version of the first candidate that has one. *)
Lemma found_version_first pkgs i pkg v :
  pkgs !! i = Some pkg →
  metadata_version P pkg = Some v →
  (∀ j q, (j < i)%nat → pkgs !! j = Some q → metadata_version P q = None) →
  found_version P pkgs = Some v.
Proof.
  revert i. induction pkgs as [|p0 rest IH]; intros i Hi Hv Hbefore; [done|].
  simpl. destruct i as [|i]; simpl in Hi.
  - injection Hi as ->. by rewrite Hv.
  - rewrite (Hbefore 0%nat p0) by (done || lia).
    apply (IH i); [done..|]. intros j q Hj Hq. apply (Hbefore (S j)); [lia|done].
Qed.

#[local] Opaque found_version asked.

Lemma torch_block_ok s : (torch_block P s).1 = Ok tt.
Proof.
  rewrite torch_block_run. simpl.
  by repeat (case_match; simpl).
Qed.

Lemma torch_block_tf s :
  _tf_available (glob (torch_block P s).2) = _tf_available (glob s)
  ∧ _tf_version (glob (torch_block P s).2) = _tf_version (glob s).
Proof.
  rewrite torch_block_run. simpl.
  by repeat (case_match; simpl).
Qed.

Lemma torch_block_avail s :
  _torch_available (glob (torch_block P s).2)
  = Some (torch_selectable && find_spec P "torch"
          && bool_decide (is_Some (metadata_version P "torch"))).
Proof.
  rewrite torch_block_run. simpl.
  destruct (_ && _); [|done]. simpl.
  destruct (find_spec P "torch"); [|done]. simpl.
  by destruct (metadata_version P "torch").
Qed.

Lemma torch_block_trace s :
  ∃ evs, trace (torch_block P s).2 = trace s ++ evs
         ∧ Forall (λ e, ¬ probes_tf e) evs
         ∧ (torch_selectable = false → Forall (λ e, ¬ probes_torch e) evs).
Proof.
  rewrite torch_block_run. simpl.
  assert (Hc := torch_not_candidate).
  assert (∀ e, e = FindSpec "torch" ∨ e = MetadataVersion "torch" ∨ (∃ m, e = LogInfo m)
               → ¬ probes_tf e) as Hno.
  { intros e H [?|[pkg [Hin ?]]]; destruct H as [->|[->|[m ->]]]; simplify_eq. done. }
  repeat (case_match; simpl); eexists; (split; [done|]);
    (split; [repeat constructor; apply Hno; eauto|]); try done.
  intros _. repeat constructor. by intros [?|?].
Qed.

Lemma tf_block_torch s :
  _torch_available (glob (tf_block P s).2) = _torch_available (glob s).
Proof.
  rewrite tf_block_run. simpl.
  by repeat (case_match; simpl).
Qed.

Lemma tf_block_trace s :
  ∃ evs, trace (tf_block P s).2 = trace s ++ evs
         ∧ Forall (λ e, ¬ probes_torch e) evs
         ∧ (tf_selectable = false → Forall (λ e, ¬ probes_tf e) evs).
Proof.
  rewrite tf_block_run. simpl.
  assert (Ha := asked_no_torch_probe).
  assert (∀ e, e = FindSpec "tensorflow" ∨ (∃ m, e = LogInfo m) → ¬ probes_torch e) as Hno.
  { intros e H [?|?]; destruct H as [->|[m ->]]; simplify_eq. }
  destruct (_ && _); simpl.
  - repeat (case_match; simpl); rewrite <- ?app_assoc; simpl; eexists;
      (split; [done|]); (split; [|done]);
      (apply Forall_cons; split; [apply Hno; eauto|]);
      first [ exact Ha | by apply Forall_nil
            | apply Forall_app; split;
              [exact Ha | repeat constructor; apply Hno; eauto] ].
  - eexists. split; [done|]. split; [repeat constructor; apply Hno; eauto|].
    intros _. repeat constructor. intros [?|[pkg [_ ?]]]; simplify_eq.
Qed.

Lemma tf_block_off s :
  tf_selectable = false → _tf_available (glob (tf_block P s).2) = Some false.
Proof. intros H. rewrite tf_block_run. simpl. by rewrite H. Qed.

Lemma require_backend_state s : (require_backend s).2 = s.
Proof.
  unfold require_backend, get_torch_available, get_tf_available. run.
  repeat (case_match; simpl in *; simplify_eq); done.
Qed.

(** Nothing after the two blocks touches the state. *)
Lemma import_module_state :
  (import_module P).2 = (tf_block P (torch_block P fresh).2).2.
Proof.
  unfold import_module, module_body, selection, bind.
  assert (Ht := torch_block_ok fresh).
  destruct (torch_block P fresh) as [r1 s1]. simpl in *. subst r1.
  destruct (tf_block P s1) as [[[]|e] s2]; simpl; [|done].
  apply require_backend_state.
Qed.

Lemma require_backend_run s bt bf :
  _torch_available (glob s) = Some bt →
  _tf_available (glob s) = Some bf →
  require_backend s =
    (if negb bt && negb bf then
       Raise (ModuleNotFoundError
                ("DocTR requires either TensorFlow or PyTorch to be installed. Please ensure one of them"
                 +:+ " is installed and that either USE_TF or USE_TORCH is enabled."))
     else Ok tt, s).
Proof.
  intros Ht Hf. unfold require_backend, get_torch_available, get_tf_available. run.
  rewrite Ht, Hf. by destruct (negb bt && negb bf).
Qed.

Lemma selection_run : selection P fresh = tf_block P (torch_block P fresh).2.
Proof.
  unfold selection, bind. assert (Ht := torch_block_ok fresh).
  destruct (torch_block P fresh) as [r1 s1]. simpl in *. by subst r1.
Qed.

(** The selection binds both globals; it can only stop early after it has
    set [_tf_available] to [True]. *)
Lemma selection_outcome :
  ∃ bt, _torch_available (glob (selection P fresh).2) = Some bt
        ∧ (((selection P fresh).1 = Ok tt
            ∧ ∃ bf, _tf_available (glob (selection P fresh).2) = Some bf)
           ∨ ((∃ e, (selection P fresh).1 = Raise e)
              ∧ _tf_available (glob (selection P fresh).2) = Some true)).
Proof.
  rewrite selection_run. eexists. split.
  { rewrite tf_block_torch. apply torch_block_avail. }
  rewrite tf_block_run. simpl.
  repeat (case_match; simpl); eauto.
Qed.

Lemma selectable_spec (own other : string) :
  bool_decide (own ∈ ENV_VARS_TRUE_AND_AUTO_VALUES)
  && negb (bool_decide (other ∈ ENV_VARS_TRUE_VALUES)) = true
  ↔ own ∈ ENV_VARS_TRUE_AND_AUTO_VALUES ∧ other ∉ ENV_VARS_TRUE_VALUES.
Proof.
  rewrite andb_true_iff, negb_true_iff, bool_decide_eq_true, bool_decide_eq_false.
  done.
Qed.

Lemma import_module_trace :
  ∃ evs1 evs2,
    trace (import_module P).2 = evs1 ++ evs2
    ∧ Forall (λ e, ¬ probes_tf e) evs1
    ∧ (torch_selectable = false → Forall (λ e, ¬ probes_torch e) evs1)
    ∧ Forall (λ e, ¬ probes_torch e) evs2
    ∧ (tf_selectable = false → Forall (λ e, ¬ probes_tf e) evs2).
Proof.
  rewrite import_module_state.
  destruct (torch_block_trace fresh) as (evs1 & E1 & ? & ?).
  destruct (tf_block_trace (torch_block P fresh).2) as (evs2 & E2 & ? & ?).
  exists evs1, evs2. by rewrite E2, E1.
Qed.

(** C1.  The flags are read from the environment with default ["AUTO"] and
    uppercased.  Whatever is installed, the import probes a backend
    ([find_spec] or a metadata lookup for it appears in the trace) only if
    that backend's flag is one of 1, ON, YES, TRUE, AUTO and the other
    backend's flag is none of 1, ON, YES, TRUE; when that condition fails the
    backend's availability global is bound to [False]. *)
Theorem selection_rule :
  let s := (import_module P).2 in
  let forced : gset string := {[ "1"; "ON"; "YES"; "TRUE" ]} in
  let allowed : gset string := {[ "1"; "ON"; "YES"; "TRUE"; "AUTO" ]} in
  USE_TF P = str_upper P (default "AUTO" (os_environ P !! "USE_TF"))
  ∧ USE_TORCH P = str_upper P (default "AUTO" (os_environ P !! "USE_TORCH"))
  ∧ ((∃ e, e ∈ trace s ∧ probes_torch e) →
       USE_TORCH P ∈ allowed ∧ USE_TF P ∉ forced)
  ∧ (¬ (USE_TORCH P ∈ allowed ∧ USE_TF P ∉ forced) →
       _torch_available (glob s) = Some false)
  ∧ ((∃ e, e ∈ trace s ∧ probes_tf e) →
       USE_TF P ∈ allowed ∧ USE_TORCH P ∉ forced)
  ∧ (¬ (USE_TF P ∈ allowed ∧ USE_TORCH P ∉ forced) →
       _tf_available (glob s) = Some false).
Proof.
  intros s forced allowed.
  change forced with ENV_VARS_TRUE_VALUES.
  change allowed with ENV_VARS_TRUE_AND_AUTO_VALUES.
  destruct import_module_trace as (evs1 & evs2 & Et & Htf1 & Hto1 & Hto2 & Htf2).
  fold s in Et. rewrite Forall_forall in Htf1, Hto2.
  split; [done|]. split; [done|].
  split; [|split; [|split]].
  - intros (e & He & Hp). apply selectable_spec.
    destruct (bool_decide (USE_TORCH P ∈ _) && _) eqn:E; [done|]. exfalso.
    rewrite Et in He. apply elem_of_app in He as [He|He].
    + specialize (Hto1 eq_refl). rewrite Forall_forall in Hto1. by eapply Hto1.
    + by eapply Hto2.
  - intros Hn. unfold s. rewrite import_module_state, tf_block_torch, torch_block_avail.
    destruct (bool_decide (USE_TORCH P ∈ _) && _) eqn:E; [|done]. by apply selectable_spec in E.
  - intros (e & He & Hp). apply selectable_spec.
    destruct (bool_decide (USE_TF P ∈ _) && _) eqn:E; [done|]. exfalso.
    rewrite Et in He. apply elem_of_app in He as [He|He].
    + by eapply Htf1.
    + specialize (Htf2 eq_refl). rewrite Forall_forall in Htf2. by eapply Htf2.
  - intros Hn. unfold s. rewrite import_module_state. apply tf_block_off.
    destruct (bool_decide (USE_TF P ∈ _) && _) eqn:E; [|done]. by apply selectable_spec in E.
Qed.

(** C2.  With the TF flag allowing selection and the Torch flag not forcing
    Torch: if the selection leaves [_tf_available] true, then the
    [tensorflow] module spec was found and [_tf_version] holds the version of
    one of the nine candidate distributions; if moreover the selection ran to
    its end, the first dot-separated component of that version is an integer
    that is at least 2.  A found version whose major component is below 2
    leaves [_tf_available] false. *)
Theorem tf_available_requires_version_2 :
  USE_TF P ∈ ({[ "1"; "ON"; "YES"; "TRUE"; "AUTO" ]} : gset string) →
  USE_TORCH P ∉ ({[ "1"; "ON"; "YES"; "TRUE" ]} : gset string) →
  let r := (selection P fresh).1 in
  let s := (selection P fresh).2 in
  candidates =
    [ "tensorflow"; "tensorflow-cpu"; "tensorflow-gpu"; "tf-nightly";
      "tf-nightly-cpu"; "tf-nightly-gpu"; "intel-tensorflow";
      "tensorflow-rocm"; "tensorflow-macos" ]
  ∧ (_tf_available (glob s) = Some true →
       find_spec P "tensorflow" = true
       ∧ ∃ pkg v,
           pkg ∈ candidates ∧ metadata_version P pkg = Some v
           ∧ _tf_version (glob s) = Some (Some v)
           ∧ (r = Ok tt →
                ∃ c major, split "." v !! 0%nat = Some c
                           ∧ py_int P c = Some major ∧ 2 ≤ major))
  ∧ (∀ v c major,
       _tf_version (glob s) = Some (Some v) →
       split "." v !! 0%nat = Some c →
       py_int P c = Some major →
       major < 2 →
       _tf_available (glob s) = Some false).
Proof.
  intros Htf Htorch r s. split; [done|].
  assert (bool_decide (USE_TF P ∈ ENV_VARS_TRUE_AND_AUTO_VALUES)
          && negb (bool_decide (USE_TORCH P ∈ ENV_VARS_TRUE_VALUES)) = true) as G.
  { by apply selectable_spec. }
  destruct (torch_block_tf fresh) as [_ Hv0]. simpl in Hv0.
  unfold r, s. rewrite selection_run, tf_block_run. simpl. rewrite G, Hv0.
  destruct (find_spec P "tensorflow"); simpl; [|done].
  destruct (found_version P candidates) as [v|] eqn:Ef; simpl; [|done].
  destruct (found_version_elem _ _ Ef) as (pkg & Hin & Hpkg).
  destruct (split "." v !! 0%nat) as [c|] eqn:Ec; simpl.
  2:{ destruct (split_cons "." v) as (c & cs & E). rewrite E in Ec. discriminate Ec. }
  destruct (py_int P c) as [major|] eqn:Ei; simpl.
  - destruct (bool_decide (major < 2)) eqn:Em; simpl.
    + split; [done|]. done.
    + apply bool_decide_eq_false in Em. split.
      * intros _. split; [done|]. exists pkg, v. repeat split; try done.
        intros _. exists c, major. repeat split; try done. lia.
      * intros v' c' major' [= <-] Hc' Hi' Hlt. simplify_eq. lia.
  - split.
    + intros _. split; [done|]. exists pkg, v. repeat split; done.
    + intros v' c' major' [= <-] Hc' Hi' Hlt. simplify_eq.
Qed.

(** C3.  If the selection leaves neither availability global true, the
    import ends in [ModuleNotFoundError]; hence after an import that
    succeeded, [is_torch_available()] or [is_tf_available()] returns
    [True]. *)
Theorem no_backend_is_fatal :
  let after := (selection P fresh).2 in
  (_torch_available (glob after) ≠ Some true →
   _tf_available (glob after) ≠ Some true →
   ∃ msg, (import_module P).1 = Raise (ModuleNotFoundError msg))
  ∧ (∀ s, import_module P = (Ok tt, s) →
          is_torch_available s = (Ok true, s)
          ∨ is_tf_available s = (Ok true, s)).
Proof.
  intros after.
  destruct selection_outcome as (bt & Hbt & Hsel). fold after in Hbt, Hsel.
  unfold import_module, module_body, bind.
  destruct (selection P fresh) as [r s'] eqn:Es. simpl in *. subst after.
  destruct Hsel as [[-> [bf Hbf]]|[[e ->] Hbf]].
  - rewrite (require_backend_run _ _ _ Hbt Hbf). split.
    + intros Ht Hf. destruct bt; [done|]. destruct bf; [done|]. simpl. eauto.
    + destruct bt; simpl.
      * intros s [= <-]. left. unfold is_torch_available, get_torch_available, read.
        by rewrite Hbt.
      * destruct bf; simpl; [|done].
        intros s [= <-]. right. unfold is_tf_available, get_tf_available, read.
        by rewrite Hbf.
  - split; [by intros _ []|done].
Qed.
(** When the version the selection records is the one of the first
    candidate distribution that has metadata. *)
Lemma recorded_version i pkg v :
  tf_selectable = true →
  find_spec P "tensorflow" = true →
  candidates !! i = Some pkg →
  metadata_version P pkg = Some v →
  (∀ j q, (j < i)%nat → candidates !! j = Some q → metadata_version P q = None) →
  _tf_version (glob (import_module P).2) = Some (Some v).
Proof.
  intros G Hfs Hi Hv Hbefore.
  rewrite import_module_state, tf_block_run. simpl. rewrite G, Hfs.
  rewrite (found_version_first _ _ _ _ Hi Hv Hbefore).
  by repeat (case_match; simpl).
Qed.

(** C10.  When the TF backend is probed and the first dot-separated
    component of the version string recorded in [_tf_version] is rejected by
    [int()], the import ends in the [ValueError] of that conversion: it
    neither completes nor raises the [ModuleNotFoundError] of the last
    lines. *)
Theorem unparsable_major_aborts_import (v c : string) :
  USE_TF P ∈ ({[ "1"; "ON"; "YES"; "TRUE"; "AUTO" ]} : gset string) →
  USE_TORCH P ∉ ({[ "1"; "ON"; "YES"; "TRUE" ]} : gset string) →
  _tf_version (glob (import_module P).2) = Some (Some v) →
  split "." v !! 0%nat = Some c →
  py_int P c = None →
  (import_module P).1
  = Raise (ValueError ("invalid literal for int() with base 10: " +:+ c)).
Proof.
  intros Htf Htorch Hrec Hc Hint.
  assert (tf_selectable = true) as G by by apply selectable_spec.
  destruct (torch_block_tf fresh) as [_ Hv0]. simpl in Hv0.
  rewrite import_module_state, tf_block_run in Hrec. simpl in Hrec.
  rewrite G, Hv0 in Hrec. revert Hrec.
  unfold import_module, module_body, bind.
  rewrite selection_run, tf_block_run. simpl. rewrite G.
  destruct (find_spec P "tensorflow"); simpl; [|done].
  destruct (found_version P candidates) as [v'|]; simpl; [|done].
  destruct (split "." v' !! 0%nat) as [c'|] eqn:Ec; simpl.
  - destruct (py_int P c') as [major|] eqn:Ei; simpl.
    + destruct (bool_decide (major < 2)); simpl; intros [= <-]; simplify_eq.
    + intros [= <-]. by simplify_eq.
  - intros [= <-]. by simplify_eq.
Qed.

End ImportFacts.

Import Builtins.

Ltac by_evaluation := apply (bool_decide_unpack _); vm_compute; exact I.

Lemma selection_rule_witness :
  _torch_available (glob (import_module tf_cpu_2_8).2) = Some false.
Proof.
  apply (proj1 (proj2 (proj2 (proj2 (selection_rule tf_cpu_2_8))))).
  intros [_ Hforced]. apply Hforced. by_evaluation.
Defined.

Lemma tf_available_requires_version_2_witness :
  (USE_TF tf_cpu_2_8 ∈ ({[ "1"; "ON"; "YES"; "TRUE"; "AUTO" ]} : gset string))
  ∧ (USE_TORCH tf_cpu_2_8 ∉ ({[ "1"; "ON"; "YES"; "TRUE" ]} : gset string))
  ∧ _tf_available (glob (selection tf_cpu_2_8 fresh).2) = Some true
  ∧ find_spec tf_cpu_2_8 "tensorflow" = true.
Proof.
  assert (USE_TF tf_cpu_2_8 ∈ ({[ "1"; "ON"; "YES"; "TRUE"; "AUTO" ]} : gset string))
    as H1 by by_evaluation.
  assert (USE_TORCH tf_cpu_2_8 ∉ ({[ "1"; "ON"; "YES"; "TRUE" ]} : gset string))
    as H2 by by_evaluation.
  assert (_tf_available (glob (selection tf_cpu_2_8 fresh).2) = Some true)
    as H3 by (vm_compute; reflexivity).
  split; [exact H1|]. split; [exact H2|]. split; [exact H3|].
  exact (proj1 (proj1 (proj2 (tf_available_requires_version_2 tf_cpu_2_8 H1 H2)) H3)).
Defined.

Lemma no_backend_is_fatal_witness :
  (∃ msg, (import_module nothing_installed).1 = Raise (ModuleNotFoundError msg))
  ∧ (let s := (import_module torch_only).2 in
     is_torch_available s = (Ok true, s) ∨ is_tf_available s = (Ok true, s)).
Proof.
  split.
  - apply (proj1 (no_backend_is_fatal nothing_installed)); vm_compute; discriminate.
  - apply (proj2 (no_backend_is_fatal torch_only)). vm_compute. reflexivity.
Defined.

Lemma unparsable_major_aborts_import_witness :
  (import_module tf_unnumbered).1
  = Raise (ValueError "invalid literal for int() with base 10: nightly").
Proof.
  apply (unparsable_major_aborts_import tf_unnumbered "nightly" "nightly").
  - by_evaluation.
  - by_evaluation.
  - vm_compute. reflexivity.
  - vm_compute. reflexivity.
  - vm_compute. reflexivity.
Defined.

(** * Properties of the morphological operators *)

Section MorphologyFacts.

Import Morphology.

Lemma pixel_imap (f : nat → nat → bool) (m : bitmap) y x :
  pixel (imap (λ y row, imap (λ x _, f y x) row) m) y x = (λ _, f y x) <$> pixel m y x.
Proof.
  unfold pixel. rewrite list_lookup_imap.
  destruct (m !! y) as [row|]; simpl; [|done].
  rewrite list_lookup_imap. by destruct (row !! x).
Qed.

Lemma padded_true m y x :
  padded m y x = true ↔
  0 ≤ y ∧ 0 ≤ x ∧ pixel m (Z.to_nat y) (Z.to_nat x) = Some true.
Proof.
  unfold padded.
  repeat case_bool_decide; simpl.
  - split.
    + intros Hp. destruct (pixel m _ _) as [[]|]; simpl in Hp; [done|done..].
    + by intros (_ & _ & ->).
  - split; [done|]. by intros (_ & ? & _).
  - split; [done|]. by intros (? & _ & _).
  - split; [done|]. by intros (? & _ & _).
Qed.

Lemma window_spec k c z :
  z ∈ window k c ↔
  Z.of_nat c - (Z.of_nat k - 1) `div` 2 ≤ z
  < Z.of_nat c - (Z.of_nat k - 1) `div` 2 + Z.of_nat k.
Proof. unfold window. by rewrite elem_of_seqZ. Qed.

Lemma erode_map_true k m y x :
  pixel (erode_map k m) y x = Some true ↔
  is_Some (pixel m y x)
  ∧ ∀ y' x', y' ∈ window k y → x' ∈ window k x → padded m y' x' = true.
Proof.
  unfold erode_map.
  rewrite (pixel_imap (λ y x, forallb (λ y', forallb (λ x', padded m y' x') (window k x))
                                        (window k y))).
  destruct (pixel m y x) as [b|]; simpl.
  2:{ split; [done|]. by intros [[? ?] _]. }
  split.
  - intros [= H]. split; [by eauto|]. intros y' x' Hy Hx.
    rewrite forallb_forall in H. apply list_elem_of_In, H in Hy.
    rewrite forallb_forall in Hy. by apply Hy, list_elem_of_In.
  - intros [_ H]. f_equal. apply forallb_forall. intros y' Hy.
    apply forallb_forall. intros x' Hx. apply H; by apply list_elem_of_In.
Qed.

Lemma dilate_map_true k m y x :
  pixel (dilate_map k m) y x = Some true ↔
  is_Some (pixel m y x)
  ∧ ∃ y' x', y' ∈ window k y ∧ x' ∈ window k x ∧ padded m y' x' = true.
Proof.
  unfold dilate_map.
  rewrite (pixel_imap (λ y x, existsb (λ y', existsb (λ x', padded m y' x') (window k x))
                                        (window k y))).
  destruct (pixel m y x) as [b|]; simpl.
  2:{ split; [done|]. by intros [[? ?] _]. }
  split.
  - intros [= H]. split; [by eauto|].
    apply existsb_exists in H as (y' & Hy & H).
    apply existsb_exists in H as (x' & Hx & H).
    exists y', x'. by rewrite <- !list_elem_of_In in *.
  - intros [_ (y' & x' & Hy & Hx & H)]. f_equal. apply existsb_exists.
    exists y'. split; [by apply list_elem_of_In|]. apply existsb_exists.
    exists x'. split; [by apply list_elem_of_In|done].
Qed.

(** C6.  Eroding the 3x3 map with a single 1 at the centre with a kernel of
    size 3 gives the all-zero map; and in any batch, an eroded pixel is 1
    only if every position of its kernel window lies inside the map and
    holds a 1 there (a position outside the map counts as 0). *)
Theorem erode_needs_all_neighbours :
  erode centre_dot 3 = zeros_3x3
  ∧ ∀ (x : list bitmap) (kernel_size n row col : nat),
      (erode x kernel_size !! n ≫= λ out, pixel out row col) = Some true →
      ∃ m, x !! n = Some m
           ∧ ∀ row' col' : Z,
               row' ∈ window kernel_size row →
               col' ∈ window kernel_size col →
               padded m row' col' = true
               ∧ 0 ≤ row' ∧ 0 ≤ col'
               ∧ pixel m (Z.to_nat row') (Z.to_nat col') = Some true.
Proof.
  split; [done|].
  intros x k n row col. unfold erode. rewrite list_lookup_fmap.
  destruct (x !! n) as [m|]; simpl; [|done].
  intros [_ H]%erode_map_true. exists m. split; [done|].
  intros row' col' Hr Hc. specialize (H _ _ Hr Hc). split; [done|].
  by apply padded_true.
Qed.

(** C7.  Dilating the same map with a kernel of size 3 gives the all-ones
    map; and in any batch, a pixel of the output is 1 as soon as some
    position of its kernel window holds a 1 in the input. *)
Theorem dilate_needs_one_neighbour :
  dilate centre_dot 3 = ones_3x3
  ∧ ∀ (x : list bitmap) (kernel_size n row col : nat) (m : bitmap) (row' col' : Z),
      x !! n = Some m →
      is_Some (pixel m row col) →
      row' ∈ window kernel_size row →
      col' ∈ window kernel_size col →
      0 ≤ row' → 0 ≤ col' →
      pixel m (Z.to_nat row') (Z.to_nat col') = Some true →
      (dilate x kernel_size !! n ≫= λ out, pixel out row col) = Some true.
Proof.
  split; [done|].
  intros x k n row col m row' col' Hm Hin Hr Hc Hr0 Hc0 Hp.
  unfold dilate. rewrite list_lookup_fmap, Hm. simpl.
  apply dilate_map_true. split; [done|].
  exists row', col'. by rewrite padded_true.
Qed.

End MorphologyFacts.

(** * Properties of the target validation *)

Section TargetFacts.

Import Targets.

Lemma valid_box_true b :
  valid_box b = true →
  (0 <= xmin b <= 1 ∧ 0 <= ymin b <= 1 ∧ 0 <= xmax b <= 1 ∧ 0 <= ymax b <= 1
   ∧ xmin b < xmax b ∧ ymin b < ymax b)%Q.
Proof.
  unfold valid_box, in_unit, Qlt_bool.
  rewrite !andb_true_iff, !negb_true_iff, !Qle_bool_iff.
  intros [[[[[[? ?] [? ?]] [? ?]] [? ?]] Hx] Hy].
  repeat split; try done.
  - apply Qnot_le_lt. intros H'%Qle_bool_iff. congruence.
  - apply Qnot_le_lt. intros H'%Qle_bool_iff. congruence.
Qed.

Lemma bad_geometry_invalid b : bad_geometry b → valid_box b = false.
Proof.
  intros Hbad. destruct (valid_box b) eqn:E; [|done].
  apply valid_box_true in E. unfold bad_geometry, outside_unit in Hbad. lra.
Qed.

Lemma check_target_integer target t :
  t ∈ target → is_integer (arr_dtype t) = true →
  check_target target = Raise (AssertionError "target boxes: integer dtype").
Proof.
  intros Hin Hint. unfold check_target.
  assert (existsb (λ t, is_integer (arr_dtype t)) target = true) as ->; [|done].
  apply existsb_exists. exists t. by rewrite <- list_elem_of_In.
Qed.

Lemma check_target_geometry target t b :
  (∀ t, t ∈ target → arr_dtype t = np_float32) →
  t ∈ target → b ∈ boxes t → bad_geometry b →
  check_target target
  = Raise (ValueError "target boxes: coordinates out of [0, 1] or inverted").
Proof.
  intros Hfl Hin Hb Hbad. unfold check_target.
  assert (existsb (λ t, is_integer (arr_dtype t)) target = false) as ->.
  { apply not_true_iff_false. intros (t' & Ht' & Hi)%existsb_exists.
    apply list_elem_of_In, Hfl in Ht'. by rewrite Ht' in Hi. }
  assert (existsb (λ t, existsb (λ b, negb (valid_box b)) (boxes t)) target = true)
    as ->; [|done].
  apply existsb_exists. exists t. split; [by apply list_elem_of_In|].
  apply existsb_exists. exists b. split; [by apply list_elem_of_In|].
  by rewrite bad_geometry_invalid.
Qed.

(** C4.  Whatever the architecture computes, a training-mode call whose
    target holds an array of integer dtype returns an [AssertionError], and
    one whose arrays are all float but hold a box with a coordinate outside
    [0,1] or with inverted corners returns a [ValueError]; so do the three
    targets of the test. *)
Theorem bad_targets_are_rejected {tensor output : Type}
    (compute : tensor → list ndarray → output) (x : tensor) :
  (∀ target t,
     t ∈ target → is_integer (arr_dtype t) = true →
     ∃ msg, call_training tensor output compute x target = Raise (AssertionError msg))
  ∧ (∀ target t b,
       (∀ t, t ∈ target → arr_dtype t = np_float32) →
       t ∈ target → b ∈ boxes t → bad_geometry b →
       ∃ msg, call_training tensor output compute x target = Raise (ValueError msg))
  ∧ (∃ msg, call_training tensor output compute x [Array np_uint8 [Box 0 0 1 1]]
            = Raise (AssertionError msg))
  ∧ (∃ msg, call_training tensor output compute x
              [Array np_float32 [Box 0 0 (3 # 2) (3 # 2)]]
            = Raise (ValueError msg))
  ∧ (∃ msg, call_training tensor output compute x
              [Array np_float32 [Box (-2 # 10) (-3 # 10) 1 1]]
            = Raise (ValueError msg)).
Proof.
  split; [|split].
  - intros target t Hin Hint. unfold call_training.
    rewrite (check_target_integer _ _ Hin Hint). eauto.
  - intros target t b Hfl Hin Hb Hbad. unfold call_training.
    rewrite (check_target_geometry _ _ _ Hfl Hin Hb Hbad). eauto.
  - repeat split; eexists; reflexivity.
Qed.

End TargetFacts.

(** * Properties of the predictor *)

Section PredictorFacts.

Import Predictor.

Context {page tensor boxes : Type}.
Variable shape : page → list nat.
Variable resize : page → tensor.
Variable model : list tensor → list boxes.
Variable batch_size : nat.

Lemma concat_slices {A} (l : list A) (bs n : nat) :
  concat ((λ idx, take bs (drop (idx * bs) l)) <$> seq 0 n) = take (n * bs) l.
Proof.
  induction n as [|n IH]; [done|].
  rewrite seq_S, fmap_app, concat_app, IH. simpl.
  rewrite app_nil_r, take_take_drop. f_equal. lia.
Qed.

(** Batching loses and repeats nothing. *)
Lemma concat_batch_inputs (samples : list tensor) :
  (0 < batch_size)%nat →
  concat (batch_inputs tensor batch_size samples) = samples.
Proof.
  intros Hbs. unfold batch_inputs. rewrite concat_slices. apply take_ge.
  pose proof (Nat.div_mod_eq (length samples + batch_size - 1) batch_size) as Hd.
  pose proof (Nat.mod_upper_bound (length samples + batch_size - 1) batch_size) as Hm.
  nia.
Qed.

Lemma length_concat_model (batches : list (list tensor)) :
  (∀ batch, length (model batch) = length batch) →
  length (concat (model <$> batches)) = length (concat batches).
Proof.
  intros Hm. induction batches as [|b rest IH]; [done|].
  rewrite fmap_cons, !concat_cons, !length_app, Hm, IH. done.
Qed.

(** C8.  With a positive batch size and a model that answers one set of
    boxes per image of a batch: when every page has a conforming shape the
    call returns one result set per page (two for two pages); when some page
    does not, it returns a [ValueError] alone, and no forward pass has been
    made. *)
Theorem predictor_results_or_value_error (pages : list page) :
  (0 < batch_size)%nat →
  (∀ batch, length (model batch) = length batch) →
  ((∀ p, p ∈ pages → length (shape p) = 3%nat) →
   ∃ out, (predict page tensor boxes shape resize model batch_size pages).1 = Ok out
          ∧ length out = length pages
          ∧ (length pages = 2%nat → length out = 2%nat))
  ∧ ((∃ p, p ∈ pages ∧ length (shape p) ≠ 3%nat) →
     ∃ msg, predict page tensor boxes shape resize model batch_size pages
            = (Raise (ValueError msg), [])).
Proof.
  intros Hbs Hmodel. unfold predict. split.
  - intros Hok.
    assert (forallb (conforms page shape) pages = true) as ->.
    { apply forallb_forall. intros p Hp%list_elem_of_In.
      unfold conforms. apply bool_decide_eq_true. auto. }
    simpl. eexists. split; [done|].
    rewrite length_concat_model, concat_batch_inputs, length_fmap by done.
    done.
  - intros (p & Hp & Hbad).
    assert (forallb (conforms page shape) pages = false) as ->; [|by eauto].
    apply not_true_iff_false. intros H.
    rewrite forallb_forall in H. apply list_elem_of_In, H in Hp.
    unfold conforms in Hp. by apply bool_decide_eq_true in Hp.
Qed.

End PredictorFacts.

(** * The model at work on concrete inputs *)

Import Morphology Targets Predictor.

Example split_version : split "." "2.10.0.dev20220427" = ["2"; "10"; "0"; "dev20220427"].
Proof. reflexivity. Qed.

Example split_no_dot : split "." "nightly" = ["nightly"].
Proof. reflexivity. Qed.

Example int_literal_samples :
  int_literal " +1_0 " = Some 10 ∧ int_literal "-3" = Some (-3)
  ∧ int_literal "2rc1" = None ∧ int_literal "" = None.
Proof. by vm_compute. Qed.

Example import_torch_only :
  (import_module torch_only).1 = Ok tt
  ∧ trace (import_module torch_only).2
    = [FindSpec "torch"; MetadataVersion "torch";
       LogInfo "PyTorch version 1.10.0 available."; FindSpec "tensorflow"].
Proof. by vm_compute. Qed.

Example good_target_accepted : check_target good_target = Ok tt.
Proof. reflexivity. Qed.

Example erode_ones_3x3 :
  erode ones_3x3 3
  = [ [ [false; false; false]; [false; true; false]; [false; false; false] ] ].
Proof. reflexivity. Qed.

Lemma bad_targets_are_rejected_witness :
  (∃ msg, call_training unit unit (λ _ _, tt) tt int_target = Raise (AssertionError msg))
  ∧ (∃ msg, call_training unit unit (λ _ _, tt) tt out_of_range_target
            = Raise (ValueError msg)).
Proof.
  split.
  - apply (proj1 (bad_targets_are_rejected (λ _ _, tt) tt)
             int_target (Array np_uint8 [Box 0 0 1 1])).
    + apply list_elem_of_here.
    + reflexivity.
  - apply (proj1 (proj2 (bad_targets_are_rejected (λ _ _, tt) tt))
             out_of_range_target
             (Array np_float32 [Box 0 0 (3 # 2) (3 # 2)]) (Box 0 0 (3 # 2) (3 # 2))).
    + intros t Ht.
      apply elem_of_cons in Ht as [->|Ht]; [reflexivity|].
      apply elem_of_cons in Ht as [->|Ht]; [reflexivity|].
      by apply elem_of_nil in Ht.
    + apply list_elem_of_here.
    + apply list_elem_of_here.
    + right. right. left. right. reflexivity.
Defined.

Lemma erode_needs_all_neighbours_witness :
  ∃ m, ones_3x3 !! 0%nat = Some m
       ∧ ∀ row' col' : Z,
           row' ∈ window 3 1 → col' ∈ window 3 1 →
           padded m row' col' = true
           ∧ 0 ≤ row' ∧ 0 ≤ col'
           ∧ pixel m (Z.to_nat row') (Z.to_nat col') = Some true.
Proof.
  apply (proj2 erode_needs_all_neighbours ones_3x3 3%nat 0%nat 1%nat 1%nat).
  reflexivity.
Defined.

Lemma dilate_needs_one_neighbour_witness :
  (dilate centre_dot 3 !! 0%nat ≫= λ out, pixel out 0 0) = Some true.
Proof.
  apply (proj2 dilate_needs_one_neighbour centre_dot 3%nat 0%nat 0%nat 0%nat
           [ [false; false; false]; [false; true; false]; [false; false; false] ]
           1 1).
  - reflexivity.
  - by eexists.
  - by_evaluation.
  - by_evaluation.
  - lia.
  - lia.
  - reflexivity.
Defined.

Lemma predictor_results_or_value_error_witness :
  (∃ out : list (list Q),
     (predict (list nat) (list nat) (list Q) id id (fmap (λ _, [])) 4 two_pages).1 = Ok out
     ∧ length out = length two_pages
     ∧ (length two_pages = 2%nat → length out = 2%nat))
  ∧ (∃ msg,
       predict (list nat) (list nat) (list Q) id id (fmap (λ _, [])) 4 [four_dimensional]
       = (Raise (ValueError msg), [])).
Proof.
  split.
  - apply (proj1 (predictor_results_or_value_error id id (fmap (λ _, [])) 4%nat two_pages
                    ltac:(lia) (λ batch, length_fmap _ batch))).
    intros p Hp.
    apply elem_of_cons in Hp as [->|Hp]; [reflexivity|].
    apply elem_of_cons in Hp as [->|Hp]; [reflexivity|].
    by apply elem_of_nil in Hp.
  - apply (proj2 (predictor_results_or_value_error id id (fmap (λ _, [])) 4%nat
                    [four_dimensional] ltac:(lia) (λ batch, length_fmap _ batch))).
    exists four_dimensional. split; [apply list_elem_of_here|]. discriminate.
Defined.

(** * Further properties of the availability shim *)

Section ShimExtras.

Variable P : process.

Lemma candidates_NoDup : NoDup candidates.
Proof. by apply (bool_decide_unpack _). Qed.

(** The loop asks for nothing beyond the first candidate that has
    metadata. *)
Lemma asked_up_to (pkgs : list string) i pkg j q :
  NoDup pkgs →
  pkgs !! i = Some pkg → is_Some (metadata_version P pkg) →
  pkgs !! j = Some q → q ∈ asked P pkgs →
  (j ≤ i)%nat.
Proof.
  revert i j. induction pkgs as [|p0 rest IH]; intros i j Hnd Hi Hv Hj Hq; [done|].
  apply NoDup_cons in Hnd as [Hp0 Hnd].
  destruct j as [|j]; [lia|]. simpl in Hj.
  assert (q ≠ p0) as Hne.
  { intros ->. apply Hp0. by eapply list_elem_of_lookup_2. }
  simpl in Hq. apply elem_of_cons in Hq as [?|Hq]; [done|].
  destruct i as [|i]; simpl in Hi.
  - injection Hi as ->. destruct Hv as [v Hv]. rewrite Hv in Hq.
    by apply elem_of_nil in Hq.
  - destruct (metadata_version P p0); [by apply elem_of_nil in Hq|].
    apply le_n_S. by apply (IH i j).
Qed.

#[local] Opaque found_version asked.

Abbreviation forced := ENV_VARS_TRUE_VALUES.
Abbreviation allowed := ENV_VARS_TRUE_AND_AUTO_VALUES.

Ltac run_ops :=
  unfold require_backend, get_torch_available, get_tf_available,
    is_torch_available, is_tf_available, bind, ret, raise, read; simpl.

(** Case analysis on everything the import asks of the process. *)
Ltac import_case :=
  match goal with
  | |- context [bool_decide (?x ∈ allowed) && negb (bool_decide (?y ∈ forced))] =>
      destruct (bool_decide (x ∈ allowed) && negb (bool_decide (y ∈ forced))) eqn:?
  | |- context [find_spec P ?n] => destruct (find_spec P n) eqn:?
  | |- context [metadata_version P "torch"] =>
      destruct (metadata_version P "torch") eqn:?
  | |- context [found_version P candidates] =>
      destruct (found_version P candidates) eqn:?
  | |- context [split "." ?v !! 0%nat] =>
      let c := fresh "c" in
      let E := fresh "Ec" in
      destruct (split_cons "." v) as (c & ? & E); rewrite E; clear E
  | |- context [py_int P ?c] => destruct (py_int P c) eqn:?
  | |- context [bool_decide (?z < 2)] => destruct (bool_decide (z < 2)) eqn:?
  end; simpl.
Ltac import_cases := repeat import_case.

Lemma import_module_unfold :
  import_module P =
    match tf_block P (torch_block P fresh).2 with
    | (Ok _, s) => require_backend s
    | (Raise e, s) => (Raise e, s)
    end.
Proof. unfold import_module, module_body, bind. by rewrite selection_run. Qed.

Lemma selectable_false (own other : string) :
  bool_decide (own ∈ allowed) && negb (bool_decide (other ∈ forced)) = false
  ↔ ¬ (own ∈ allowed ∧ other ∉ forced).
Proof. by rewrite <- selectable_spec, not_true_iff_false. Qed.


(** Every event of the import, with what must have been found for it to
    happen. *)
Lemma trace_elem e :
  e ∈ trace (import_module P).2 →
  e = FindSpec "torch"
  ∨ (e = MetadataVersion "torch" ∧ find_spec P "torch" = true)
  ∨ e = FindSpec "tensorflow"
  ∨ (∃ pkg, pkg ∈ asked P candidates ∧ e = MetadataVersion pkg
            ∧ find_spec P "tensorflow" = true)
  ∨ ∃ m, e = LogInfo m.
Proof.
  rewrite import_module_state, tf_block_run, torch_block_run. simpl.
  import_cases; intros H;
    repeat (rewrite elem_of_app in H || rewrite elem_of_cons in H
            || rewrite elem_of_nil in H);
    repeat match goal with
           | H : _ ∨ _ |- _ => destruct H as [H|H]
           | H : False |- _ => destruct H
           | H : _ ∈ map MetadataVersion _ |- _ =>
               apply list_elem_of_fmap in H as (? & -> & H)
           end;
    subst; eauto 10.
Qed.

(** X2.  With both flags force-true each backend is switched off by the
    other's flag: nothing is probed, both globals are bound to [False] and
    the import ends in [ModuleNotFoundError], whatever is installed. *)
Theorem both_forced_is_fatal :
  USE_TF P ∈ ENV_VARS_TRUE_VALUES →
  USE_TORCH P ∈ ENV_VARS_TRUE_VALUES →
  import_module P
  = (Raise (ModuleNotFoundError
              "DocTR requires either TensorFlow or PyTorch to be installed. Please ensure one of them is installed and that either USE_TF or USE_TORCH is enabled."),
     State (Globals (Some false) None (Some false) None)
           [LogInfo "Disabling PyTorch because USE_TF is set";
            LogInfo "Disabling Tensorflow because USE_TORCH is set"]).
Proof.
  intros Htf Htorch.
  rewrite import_module_unfold, tf_block_run, torch_block_run. simpl.
  rewrite (bool_decide_eq_true_2 _ Htf), (bool_decide_eq_true_2 _ Htorch).
  by rewrite !andb_false_r.
Qed.

(** X3.  After the import (whatever its outcome) [_torch_available] is
    [True] exactly when the Torch flag allows it, the TF flag does not force
    TF, the [torch] module spec is found and the [torch] distribution has
    metadata. *)
Theorem torch_available_iff :
  _torch_available (glob (import_module P).2) = Some true
  ↔ (USE_TORCH P ∈ ENV_VARS_TRUE_AND_AUTO_VALUES)
    ∧ (USE_TF P ∉ ENV_VARS_TRUE_VALUES)
    ∧ find_spec P "torch" = true
    ∧ is_Some (metadata_version P "torch").
Proof.
  rewrite import_module_state, tf_block_torch, torch_block_avail. split.
  - intros [= H]. apply andb_true_iff in H as [H Hm].
    apply andb_true_iff in H as [G Hfs]. apply selectable_spec in G as [? ?].
    by apply bool_decide_eq_true in Hm.
  - intros (H1 & H2 & Hfs & Hm). f_equal.
    rewrite (proj2 (selectable_spec _ _) (conj H1 H2)), Hfs. simpl.
    by apply bool_decide_eq_true.
Qed.

(** X4.  When TF may be selected, the [tensorflow] module spec is found and
    the first candidate distribution with metadata has a version whose
    first component [int()] reads as a number that is at least 2, the
    import succeeds and [is_tf_available()] returns [True]. *)
Theorem tf_version_2_is_available (i : nat) (pkg v c : string) (major : Z) :
  USE_TF P ∈ ENV_VARS_TRUE_AND_AUTO_VALUES →
  USE_TORCH P ∉ ENV_VARS_TRUE_VALUES →
  find_spec P "tensorflow" = true →
  candidates !! i = Some pkg →
  metadata_version P pkg = Some v →
  (∀ j q, (j < i)%nat → candidates !! j = Some q → metadata_version P q = None) →
  split "." v !! 0%nat = Some c →
  py_int P c = Some major →
  2 ≤ major →
  let s := (import_module P).2 in
  (import_module P).1 = Ok tt ∧ is_tf_available s = (Ok true, s).
Proof.
  intros Htf Htorch Hfs Hi Hv Hbefore Hc Hint Hmajor.
  assert (G := proj2 (selectable_spec _ _) (conj Htf Htorch)).
  rewrite import_module_unfold, tf_block_run. simpl.
  rewrite G, Hfs, (found_version_first _ _ _ _ _ Hi Hv Hbefore), Hc, Hint.
  rewrite bool_decide_eq_false_2 by lia.
  rewrite torch_block_run. simpl. import_cases; run_ops; done.
Qed.

(** X5.  The loop over the candidates stops at the first one that has
    metadata: no candidate listed after it is ever looked up. *)
Theorem later_candidates_are_not_asked (i j : nat) (pkg q : string) :
  candidates !! i = Some pkg →
  is_Some (metadata_version P pkg) →
  (i < j)%nat →
  candidates !! j = Some q →
  MetadataVersion q ∉ trace (import_module P).2.
Proof.
  intros Hi Hv Hlt Hj Hin.
  apply trace_elem in Hin
    as [?|[[[= ->] _]|[?|[(q' & Hq' & [= <-] & _)|[m ?]]]]]; try done.
  - by eapply torch_not_candidate, list_elem_of_lookup_2.
  - pose proof (asked_up_to _ _ _ _ _ candidates_NoDup Hi Hv Hj Hq'). lia.
Qed.

(** X6.  Metadata is only looked up for a module whose spec was found:
    without a [torch] spec there is no lookup of the [torch] distribution,
    and without a [tensorflow] spec no candidate distribution is looked
    up. *)
Theorem no_metadata_lookup_without_spec :
  (find_spec P "torch" = false →
   MetadataVersion "torch" ∉ trace (import_module P).2)
  ∧ (find_spec P "tensorflow" = false →
     ∀ pkg, pkg ∈ candidates → MetadataVersion pkg ∉ trace (import_module P).2).
Proof.
  split.
  - intros Hfs Hin.
    apply trace_elem in Hin
      as [?|[[_ ?]|[?|[(q' & Hq' & [= <-] & _)|[m ?]]]]]; try done; [congruence|].
    by eapply torch_not_candidate, asked_subseteq.
  - intros Hfs pkg Hpkg Hin.
    apply trace_elem in Hin
      as [?|[[[= ->] _]|[?|[(q' & _ & _ & ?)|[m ?]]]]]; try done; [|congruence].
    by apply torch_not_candidate.
Qed.

Lemma allowed_not_forced (flag : string) :
  flag ∈ ENV_VARS_TRUE_AND_AUTO_VALUES → flag ∉ ENV_VARS_TRUE_VALUES → flag = "AUTO".
Proof.
  unfold ENV_VARS_TRUE_AND_AUTO_VALUES.
  intros [?|?%elem_of_singleton]%elem_of_union ?; done.
Qed.

(** X7.  Both backends end up available only when both flags are exactly
    ["AUTO"]. *)
Theorem both_available_only_on_auto :
  _torch_available (glob (import_module P).2) = Some true →
  _tf_available (glob (import_module P).2) = Some true →
  USE_TF P = "AUTO" ∧ USE_TORCH P = "AUTO".
Proof.
  rewrite import_module_state, tf_block_torch, torch_block_avail.
  intros [= Ht] Hf.
  apply andb_true_iff in Ht as [Ht _]. apply andb_true_iff in Ht as [Ht _].
  apply selectable_spec in Ht as [? ?].
  destruct (bool_decide (USE_TF P ∈ allowed)
            && negb (bool_decide (USE_TORCH P ∈ forced))) eqn:G.
  - apply selectable_spec in G as [? ?]. split; by apply allowed_not_forced.
  - by rewrite (tf_block_off _ _ G) in Hf.
Qed.

(** X8.  When TF cannot be selected (its flag does not allow it, or the
    Torch flag forces Torch), Torch alone decides: the import either
    succeeds with [_torch_available] true or ends in [ModuleNotFoundError]
    with it false; a TF distribution with an unreadable version cannot make
    it fail. *)
Theorem torch_alone_decides :
  ¬ (USE_TF P ∈ ENV_VARS_TRUE_AND_AUTO_VALUES ∧ USE_TORCH P ∉ ENV_VARS_TRUE_VALUES) →
  let r := (import_module P).1 in
  let s := (import_module P).2 in
  _tf_available (glob s) = Some false
  ∧ ((r = Ok tt ∧ _torch_available (glob s) = Some true)
     ∨ ((∃ msg, r = Raise (ModuleNotFoundError msg))
        ∧ _torch_available (glob s) = Some false)).
Proof.
  intros G%selectable_false.
  rewrite import_module_unfold, tf_block_run. simpl. rewrite G.
  rewrite torch_block_run. simpl. import_cases; run_ops; eauto.
Qed.

(** X9.  The last lines add nothing to a selection that found a backend: if
    the selection completes with one of the two globals true, the import
    completes in the very state the selection left. *)
Theorem found_backend_completes_import :
  (selection P fresh).1 = Ok tt →
  _torch_available (glob (selection P fresh).2) = Some true
  ∨ _tf_available (glob (selection P fresh).2) = Some true →
  import_module P = (Ok tt, (selection P fresh).2).
Proof.
  intros Hok Hone. unfold import_module, module_body, bind.
  destruct (selection_outcome P) as (bt & Hbt & [[_ [bf Hbf]]|[[e He] _]]);
    [|congruence].
  destruct (selection P fresh) as [r s]. simpl in *. subst r.
  rewrite (require_backend_run _ _ _ Hbt Hbf).
  destruct Hone as [H|H]; rewrite H in *; simplify_eq; [done|].
  by rewrite andb_false_r.
Qed.

(** X10.  With neither variable in the environment (and an [upper] that
    leaves ["AUTO"] alone) both backends are probed, Torch first. *)
Theorem default_environment_probes_both :
  os_environ P !! "USE_TF" = None →
  os_environ P !! "USE_TORCH" = None →
  str_upper P "AUTO" = "AUTO" →
  ∃ rest, trace (import_module P).2 = FindSpec "torch" :: rest
          ∧ FindSpec "tensorflow" ∈ rest.
Proof.
  intros Htf Htorch Hup.
  rewrite import_module_state, tf_block_run, torch_block_run.
  unfold USE_TF, USE_TORCH, environ_get. rewrite Htf, Htorch, Hup.
  replace (bool_decide ("AUTO" ∈ allowed) && negb (bool_decide ("AUTO" ∈ forced)))
    with true by (by vm_compute).
  simpl. import_cases; eexists; (split; [reflexivity|]);
    rewrite ?elem_of_app, ?elem_of_cons; eauto 10.
Qed.


(** X14.  A TensorFlow older than version 2 does not count: when TF may be
    selected, the version recorded in [_tf_version] has a major component
    below 2 and Torch is not available, the import ends in
    [ModuleNotFoundError] although a TensorFlow is installed, after logging
    that version 2 is the minimum. *)
Theorem old_tensorflow_alone_is_fatal (v c : string) (major : Z) :
  USE_TF P ∈ ENV_VARS_TRUE_AND_AUTO_VALUES →
  USE_TORCH P ∉ ENV_VARS_TRUE_VALUES →
  _tf_version (glob (import_module P).2) = Some (Some v) →
  split "." v !! 0%nat = Some c →
  py_int P c = Some major →
  major < 2 →
  _torch_available (glob (import_module P).2) = Some false →
  (∃ msg, (import_module P).1 = Raise (ModuleNotFoundError msg))
  ∧ LogInfo ("TensorFlow found but with version " +:+ v
             +:+ ". DocTR requires version 2 minimum.")
    ∈ trace (import_module P).2.
Proof.
  intros Htf Htorch Hrec Hc Hint Hlt Hto.
  assert (G := proj2 (selectable_spec _ _) (conj Htf Htorch)).
  destruct (torch_block_tf P fresh) as [_ Hv0]. simpl in Hv0.
  assert (Hto' := Hto). rewrite import_module_state, tf_block_torch in Hto'.
  revert Hrec. rewrite import_module_unfold, tf_block_run. simpl.
  rewrite G, Hv0, Hto'.
  destruct (find_spec P "tensorflow"); simpl; [|done].
  destruct (found_version P candidates) as [v'|]; simpl; [|done].
  destruct (split "." v' !! 0%nat) as [c'|] eqn:Ec; simpl;
    [|by intros [= <-]; simplify_eq].
  destruct (py_int P c') as [major'|] eqn:Ei; simpl;
    [|by intros [= <-]; simplify_eq].
  destruct (bool_decide (major' < 2)) eqn:Em; run_ops.
  - intros [= <-]. split; [by eauto|].
    rewrite !elem_of_app, !elem_of_cons. auto.
  - intros [= <-]. simplify_eq. apply bool_decide_eq_false in Em. lia.
Qed.

End ShimExtras.

(** X11.  [v.split('.')[0]] always exists: it is the text of [v] before its
    first dot (the whole of [v] when there is none), so line 65 never raises
    [IndexError] and reads nothing after the first dot. *)
Theorem first_component_is_prefix (sep : ascii) (s : string) :
  ∃ c, split sep s !! 0%nat = Some c
       ∧ (sep ∉ list_ascii_of_string c)
       ∧ (s = c ∨ ∃ rest, s = c +:+ String sep rest).
Proof.
  induction s as [|a s (c & Hc & Hsep & Hs)]; simpl.
  - exists EmptyString. split; [done|]. split; [by intros ?%elem_of_nil|by left].
  - case_decide as Ha.
    + subst a. exists EmptyString.
      split; [done|]. split; [by intros ?%elem_of_nil|]. right. by exists s.
    + destruct (split sep s) as [|w ws]; [done|]. injection Hc as ->.
      exists (String a c). split; [done|]. split.
      * simpl. intros [?|?]%elem_of_cons; [by subst|done].
      * destruct Hs as [->|[rest ->]]; [by left|]. right. by exists rest.
Qed.

(** * What the box assertions of the test accept *)

Section BoxAssertions.

Import DetectionTest.

Lemma np_all_zip_rows (f : float → float → bool) (g h : list float → list float)
    (l : list (list float)) :
  np_all (zip_with (zip_with f) (g <$> l) (h <$> l))
  = forallb (λ row, forallb id (zip_with f (g row) (h row))) l.
Proof. unfold np_all. induction l as [|row l IH]; simpl; [done|]. by f_equal. Qed.

Lemma np_all_map_rows (f : float → bool) (g : list float → list float)
    (l : list (list float)) :
  np_all ((λ row : list float, f <$> row) <$> (g <$> l))
  = forallb (λ row, forallb f (g row)) l.
Proof.
  unfold np_all. induction l as [|row l IH]; simpl; [done|]. f_equal; [|done].
  generalize (g row). intros r. induction r as [|e r IHr]; simpl; [done|].
  by f_equal.
Qed.

Lemma in_unit_finite (e : float) :
  fle (Finite 0) e = true → fle e (Finite 1) = true →
  ∃ q, e = Finite q ∧ (0 <= q <= 1)%Q.
Proof.
  destruct e as [q| | |]; simpl; try done.
  intros ?%Qle_bool_iff ?%Qle_bool_iff. eauto.
Qed.

Lemma Qlt_bool_iff (a b : Q) : Targets.Qlt_bool a b = true ↔ (a < b)%Q.
Proof.
  unfold Targets.Qlt_bool. rewrite negb_true_iff, <- not_true_iff_false, Qle_bool_iff.
  split; [apply Qnot_le_lt|apply Qlt_not_le].
Qed.

(** The three assertions on one row of five entries. *)
Lemma row_assertions (row : list float) :
  length row = 5%nat →
  forallb id (zip_with flt (take 2 (drop 0 row)) (take 2 (drop 2 row)))
  && (forallb (λ e, fle (Finite 0) e) (take 4 (drop 0 row))
      && forallb (λ e, fle e (Finite 1)) (take 4 (drop 0 row))) = true
  ↔ accepted_row row.
Proof.
  intros Hlen.
  destruct row as [|a [|b [|c [|d [|e [|? ?]]]]]]; try done. simpl.
  rewrite !andb_true_r. split.
  - rewrite !andb_true_iff.
    intros [[Hac Hbd] [(Ha & Hb & Hc & Hd) (Ha' & Hb' & Hc' & Hd')]].
    destruct (in_unit_finite _ Ha Ha') as (x0 & -> & ?).
    destruct (in_unit_finite _ Hb Hb') as (y0 & -> & ?).
    destruct (in_unit_finite _ Hc Hc') as (x1 & -> & ?).
    destruct (in_unit_finite _ Hd Hd') as (y1 & -> & ?).
    apply Qlt_bool_iff in Hac, Hbd.
    exists x0, y0, x1, y1, e. done.
  - intros (x0 & y0 & x1 & y1 & s & [= -> -> -> -> ->] & H0 & H1 & H2 & H3 & Hx & Hy).
    simpl. rewrite !andb_true_iff, !Qlt_bool_iff, !Qle_bool_iff. tauto.
Qed.

Lemma check_boxes_ok (boxes : matrix) :
  well_formed boxes →
  check_boxes boxes = Ok tt
  ↔ shape1 boxes = 5%nat ∧ Forall accepted_row (rows boxes).
Proof.
  intros Hwf. unfold check_boxes, assert, less, greater_equal, less_equal, columns.
  case_bool_decide as H5; [|by split; [|intros [? _]]].
  rewrite np_all_zip_rows, !np_all_map_rows. simpl Nat.sub.
  unfold well_formed in Hwf. rewrite H5 in Hwf.
  set (ord := λ row : list float, forallb id (zip_with flt _ _)).
  set (ge0 := λ row : list float, forallb _ _).
  set (le1 := λ row : list float, forallb _ _).
  assert (forallb ord (rows boxes) && (forallb ge0 (rows boxes) && forallb le1 (rows boxes))
          = true ↔ Forall accepted_row (rows boxes)) as Hrows.
  { induction Hwf as [|row l Hrow Hl IH]; simpl; [done|].
    rewrite Forall_cons, <- IH, <- (row_assertions row Hrow).
    fold (ord row) (ge0 row) (le1 row). rewrite !andb_true_iff. tauto. }
  rewrite <- Hrows.
  destruct (forallb ord (rows boxes)); simpl; [|by split; [|intros [_ ?]]].
  destruct (_ && _); simpl; by split; [|intros [_ ?]].
Qed.

(** X13.  On well-formed arrays, the box assertions of the test pass exactly
    when every array has five columns and every row has four finite
    coordinates in [0,1] with [xmin < xmax] and [ymin < ymax].  The fifth
    column, the score, is not looked at: it may be any number, or NaN. *)
Theorem box_assertions_ignore_the_score (preds : list matrix) :
  Forall well_formed preds →
  check_preds preds = Ok tt
  ↔ Forall (λ boxes, shape1 boxes = 5%nat ∧ Forall accepted_row (rows boxes)) preds.
Proof.
  intros Hwf. induction Hwf as [|boxes rest Hb Hrest IH]; simpl; [done|].
  rewrite Forall_cons, <- IH, <- (check_boxes_ok boxes Hb).
  destruct (check_boxes boxes) as [[]|e]; simpl; [tauto|].
  split; [done|by intros [? _]].
Qed.

End BoxAssertions.

(** * The further properties on concrete installations *)

Import Scenarios DetectionTest.

Lemma both_forced_is_fatal_witness :
  import_module both_forced
  = (Raise (ModuleNotFoundError
              "DocTR requires either TensorFlow or PyTorch to be installed. Please ensure one of them is installed and that either USE_TF or USE_TORCH is enabled."),
     State (Globals (Some false) None (Some false) None)
           [LogInfo "Disabling PyTorch because USE_TF is set";
            LogInfo "Disabling Tensorflow because USE_TORCH is set"]).
Proof.
  apply (both_forced_is_fatal both_forced); by_evaluation.
Defined.

Lemma tf_version_2_is_available_witness :
  (import_module tf_cpu_2_8).1 = Ok tt
  ∧ is_tf_available (import_module tf_cpu_2_8).2
    = (Ok true, (import_module tf_cpu_2_8).2).
Proof.
  apply (tf_version_2_is_available tf_cpu_2_8 1 "tensorflow-cpu" "2.8.0" "2" 2).
  - by_evaluation.
  - by_evaluation.
  - vm_compute. reflexivity.
  - reflexivity.
  - vm_compute. reflexivity.
  - intros j q Hj Hq. destruct j as [|j]; [|lia].
    injection Hq as <-. vm_compute. reflexivity.
  - reflexivity.
  - vm_compute. reflexivity.
  - lia.
Defined.

Lemma later_candidates_are_not_asked_witness :
  MetadataVersion "tensorflow-cpu" ∉ trace (import_module both_installed).2.
Proof.
  apply (later_candidates_are_not_asked both_installed 0 1 "tensorflow" "tensorflow-cpu").
  - reflexivity.
  - exists "2.8.0". vm_compute. reflexivity.
  - lia.
  - reflexivity.
Defined.

Lemma no_metadata_lookup_without_spec_witness :
  (MetadataVersion "torch" ∉ trace (import_module nothing_installed).2)
  ∧ (MetadataVersion "tf-nightly" ∉ trace (import_module nothing_installed).2).
Proof.
  split.
  - apply (proj1 (no_metadata_lookup_without_spec nothing_installed)).
    vm_compute. reflexivity.
  - apply (proj2 (no_metadata_lookup_without_spec nothing_installed)).
    + vm_compute. reflexivity.
    + by_evaluation.
Defined.

Lemma both_available_only_on_auto_witness :
  USE_TF both_installed = "AUTO" ∧ USE_TORCH both_installed = "AUTO".
Proof.
  apply (both_available_only_on_auto both_installed); vm_compute; reflexivity.
Defined.

Lemma torch_alone_decides_witness :
  _tf_available (glob (import_module tf_switched_off).2) = Some false
  ∧ (((import_module tf_switched_off).1 = Ok tt
      ∧ _torch_available (glob (import_module tf_switched_off).2) = Some true)
     ∨ ((∃ msg, (import_module tf_switched_off).1 = Raise (ModuleNotFoundError msg))
        ∧ _torch_available (glob (import_module tf_switched_off).2) = Some false)).
Proof.
  apply (torch_alone_decides tf_switched_off).
  intros [Hallowed _]. revert Hallowed. by_evaluation.
Defined.

Lemma found_backend_completes_import_witness :
  import_module torch_only = (Ok tt, (selection torch_only fresh).2).
Proof.
  apply (found_backend_completes_import torch_only).
  - vm_compute. reflexivity.
  - left. vm_compute. reflexivity.
Defined.

Lemma default_environment_probes_both_witness :
  ∃ rest, trace (import_module both_installed).2 = FindSpec "torch" :: rest
          ∧ FindSpec "tensorflow" ∈ rest.
Proof.
  apply (default_environment_probes_both both_installed); reflexivity.
Defined.

Lemma old_tensorflow_alone_is_fatal_witness :
  (∃ msg, (import_module tf_1_15).1 = Raise (ModuleNotFoundError msg))
  ∧ LogInfo "TensorFlow found but with version 1.15.0. DocTR requires version 2 minimum."
    ∈ trace (import_module tf_1_15).2.
Proof.
  apply (old_tensorflow_alone_is_fatal tf_1_15 "1.15.0" "1" 1).
  - by_evaluation.
  - by_evaluation.
  - vm_compute. reflexivity.
  - reflexivity.
  - vm_compute. reflexivity.
  - lia.
  - vm_compute. reflexivity.
Defined.

Lemma box_assertions_ignore_the_score_witness :
  check_preds odd_scores = Ok tt
  ↔ Forall (λ boxes, shape1 boxes = 5%nat ∧ Forall accepted_row (rows boxes))
           odd_scores.
Proof.
  apply (box_assertions_ignore_the_score odd_scores).
  repeat constructor.
Defined.

Example odd_scores_pass : check_preds odd_scores = Ok tt.
Proof. reflexivity. Qed.

Example module_without_distribution :
  _tf_available (glob (import_module tf_without_metadata).2) = Some false
  ∧ _tf_version (glob (import_module tf_without_metadata).2) = Some None
  ∧ (import_module tf_without_metadata).1 = Ok tt.
Proof. by vm_compute. Qed.
